(** * include/leveldb/statistics.h

    A shallow embedding of the statistics header: the two identifier
    enumerations with their name catalogs, the [Ticker] counter, the
    [Statistics] interface and the [RecordTick] convenience wrapper,
    followed by the properties established for them. *)

From Stdlib Require Import ZArith Lia Ascii Floats.
From stdpp Require Import base decidable option list list_numbers strings.

Local Open Scope Z_scope.

(** ** Machine integers

    [uint64_t] and [int] are kept as [Z] together with their ranges; every
    conversion and every wrap-around of the source is written out. *)
Module Int.

Definition uint64_modulus : Z := 2 ^ 64.
Definition int_min : Z := - 2 ^ 31.
Definition int_max : Z := 2 ^ 31 - 1.

Definition is_uint64 (z : Z) : Prop := 0 ≤ z < uint64_modulus.
Definition is_int (z : Z) : Prop := int_min ≤ z ≤ int_max.

(** Conversion of any integer value to [uint64_t]: reduction modulo 2^64. *)
Definition to_uint64 (z : Z) : Z := z mod uint64_modulus.

(** Conversion of a [uint64_t] to the signed 64-bit [long]. *)
Definition to_long (z : Z) : Z :=
  if decide (z < 2 ^ 63) then z else z - uint64_modulus.

(** Narrowing of a [uint64_t] to [int], as done at a call that passes a
    64-bit count to a parameter declared [int]. *)
Definition to_int (z : Z) : Z :=
  let r := z mod 2 ^ 32 in
  if decide (r < 2 ^ 31) then r else r - 2 ^ 32.

End Int.

(** ** The identifier enumerations *)

Inductive Tickers : Set :=
  | BLOCK_CACHE_MISS
  | BLOCK_CACHE_HIT
  | BLOOM_FILTER_USEFUL
  | COMPACTION_KEY_DROP_NEWER_ENTRY
  | COMPACTION_KEY_DROP_OBSOLETE
  | COMPACTION_KEY_DROP_USER
  | NUMBER_KEYS_WRITTEN
  | NUMBER_KEYS_READ
  | BYTES_WRITTEN
  | BYTES_READ
  | NO_FILE_CLOSES
  | NO_FILE_OPENS
  | NO_FILE_ERRORS
  | STALL_L0_SLOWDOWN_MICROS
  | STALL_MEMTABLE_COMPACTION_MICROS
  | STALL_L0_NUM_FILES_MICROS
  | RATE_LIMIT_DELAY_MILLIS
  | NO_ITERATORS
  | NUMBER_MULTIGET_CALLS
  | NUMBER_MULTIGET_KEYS_READ
  | NUMBER_MULTIGET_BYTES_READ
  | TICKER_ENUM_MAX.

(** The integer each enumerator is assigned in the header. *)
Definition Tickers_value (t : Tickers) : Z :=
  match t with
  | BLOCK_CACHE_MISS => 0
  | BLOCK_CACHE_HIT => 1
  | BLOOM_FILTER_USEFUL => 2
  | COMPACTION_KEY_DROP_NEWER_ENTRY => 3
  | COMPACTION_KEY_DROP_OBSOLETE => 4
  | COMPACTION_KEY_DROP_USER => 5
  | NUMBER_KEYS_WRITTEN => 6
  | NUMBER_KEYS_READ => 7
  | BYTES_WRITTEN => 8
  | BYTES_READ => 9
  | NO_FILE_CLOSES => 10
  | NO_FILE_OPENS => 11
  | NO_FILE_ERRORS => 12
  | STALL_L0_SLOWDOWN_MICROS => 13
  | STALL_MEMTABLE_COMPACTION_MICROS => 14
  | STALL_L0_NUM_FILES_MICROS => 15
  | RATE_LIMIT_DELAY_MILLIS => 16
  | NO_ITERATORS => 17
  | NUMBER_MULTIGET_CALLS => 18
  | NUMBER_MULTIGET_KEYS_READ => 19
  | NUMBER_MULTIGET_BYTES_READ => 20
  | TICKER_ENUM_MAX => 21
  end.

#[global] Instance Tickers_eq_dec : EqDecision Tickers.
Proof. solve_decision. Defined.

Inductive Histograms : Set :=
  | DB_GET
  | DB_WRITE
  | COMPACTION_TIME
  | TABLE_SYNC_MICROS
  | COMPACTION_OUTFILE_SYNC_MICROS
  | WAL_FILE_SYNC_MICROS
  | MANIFEST_FILE_SYNC_MICROS
  | TABLE_OPEN_IO_MICROS
  | DB_MULTIGET
  | HISTOGRAM_ENUM_MAX.

Definition Histograms_value (h : Histograms) : Z :=
  match h with
  | DB_GET => 0
  | DB_WRITE => 1
  | COMPACTION_TIME => 2
  | TABLE_SYNC_MICROS => 3
  | COMPACTION_OUTFILE_SYNC_MICROS => 4
  | WAL_FILE_SYNC_MICROS => 5
  | MANIFEST_FILE_SYNC_MICROS => 6
  | TABLE_OPEN_IO_MICROS => 7
  | DB_MULTIGET => 8
  | HISTOGRAM_ENUM_MAX => 9
  end.

#[global] Instance Histograms_eq_dec : EqDecision Histograms.
Proof. solve_decision. Defined.

(** ** The name catalogs

    Both are [std::vector]s of pairs, so order and duplicates are part of
    the data: they are lists of pairs here. *)

Definition TickersNameMap : list (Tickers * string) := [
  (BLOCK_CACHE_MISS, "levledb.block.cache.miss");
  (BLOCK_CACHE_HIT, "rocksdb.block.cache.hit");
  (BLOOM_FILTER_USEFUL, "rocksdb.bloom.filter.useful");
  (COMPACTION_KEY_DROP_NEWER_ENTRY, "rocksdb.compaction.key.drop.new");
  (COMPACTION_KEY_DROP_OBSOLETE, "rocksdb.compaction.key.drop.obsolete");
  (COMPACTION_KEY_DROP_USER, "rocksdb.compaction.key.drop.user");
  (NUMBER_KEYS_WRITTEN, "rocksdb.number.keys.written");
  (NUMBER_KEYS_READ, "rocksdb.number.keys.read");
  (BYTES_WRITTEN, "rocksdb.bytes.written");
  (BYTES_READ, "rocksdb.bytes.read");
  (NO_FILE_CLOSES, "rocksdb.no.file.closes");
  (NO_FILE_OPENS, "rocksdb.no.file.opens");
  (NO_FILE_ERRORS, "rocksdb.no.file.errors");
  (STALL_L0_SLOWDOWN_MICROS, "rocksdb.l0.slowdown.micros");
  (STALL_MEMTABLE_COMPACTION_MICROS, "rocksdb.memtable.compaction.micros");
  (STALL_L0_NUM_FILES_MICROS, "rocksdb.l0.num.files.stall.micros");
  (RATE_LIMIT_DELAY_MILLIS, "rocksdb.rate.limit.dleay.millis");
  (NO_ITERATORS, "rocksdb.num.iterators");
  (NUMBER_MULTIGET_CALLS, "rocksdb.number.multiget.get");
  (NUMBER_MULTIGET_KEYS_READ, "rocksdb.number.multiget.keys.read");
  (NUMBER_MULTIGET_BYTES_READ, "rocksdb.number.multiget.bytes.read")
]%string.

Definition HistogramsNameMap : list (Histograms * string) := [
  (DB_GET, "rocksdb.db.get.micros");
  (DB_WRITE, "rocksdb.db.write.micros");
  (COMPACTION_TIME, "rocksdb.compaction.times.micros");
  (TABLE_SYNC_MICROS, "rocksdb.table.sync.micros");
  (COMPACTION_OUTFILE_SYNC_MICROS, "rocksdb.compaction.outfile.sync.micros");
  (WAL_FILE_SYNC_MICROS, "rocksdb.wal.file.sync.micros");
  (MANIFEST_FILE_SYNC_MICROS, "rocksdb.manifest.file.sync.micros");
  (TABLE_OPEN_IO_MICROS, "rocksdb.table.open.io.micros");
  (DB_MULTIGET, "rocksdb.db.multiget.micros")
]%string.

(** [std::vector::size], a [size_t], read as an integer. *)
Definition size {A} (v : list A) : Z := Z.of_nat (length v).

(** ** Reading a catalog *)
Section Catalog.
Context {Id : Type} (value : Id → Z).

(** The entries of a catalog whose identifier has the integer value [z]. *)
Definition entries_of (m : list (Id * string)) (z : Z) : list (Id * string) :=
  filter (λ e, value e.1 = z) m.

(** The identifier values in the order the catalog lists them. *)
Definition listed_values (m : list (Id * string)) : list Z :=
  (λ e, value e.1) <$> m.

(** Lookup of a name by position, the position being the identifier value. *)
Definition name_at (m : list (Id * string)) (z : Z) : option string :=
  if decide (0 ≤ z) then snd <$> m !! Z.to_nat z else None.
End Catalog.

(** ** Shape of a metric name *)
Module Name.

Definition is_upper (c : ascii) : bool :=
  let n := Ascii.nat_of_ascii c in (Nat.leb 65 n) && (Nat.leb n 90).
Definition is_lower (c : ascii) : bool :=
  let n := Ascii.nat_of_ascii c in (Nat.leb 97 n) && (Nat.leb n 122).
Definition is_digit (c : ascii) : bool :=
  let n := Ascii.nat_of_ascii c in (Nat.leb 48 n) && (Nat.leb n 57).

Definition chars (s : string) : list ascii := String.list_ascii_of_string s.

(** The components of [s] between dots (the component under construction is
    kept in [cur]). *)
Fixpoint components_from (cur : list ascii) (cs : list ascii) : list (list ascii) :=
  match cs with
  | [] => [cur]
  | c :: cs' =>
      if Ascii.eqb c "."%char then cur :: components_from [] cs'
      else components_from (cur ++ [c]) cs'
  end.
Definition components (s : string) : list (list ascii) :=
  components_from [] (chars s).

(** No letter of [s] is upper case. *)
Definition lowercase (s : string) : bool :=
  forallb (λ c, negb (is_upper c)) (chars s).

(** [s] is made of two or more components joined by single dots, every
    component being a non-empty run of lower-case letters and digits. *)
Definition dot_separated (s : string) : bool :=
  let parts := components s in
  (Nat.leb 2 (length parts))
  && forallb (λ p, negb (Nat.eqb (length p) 0)
                   && forallb (λ c, is_lower c || is_digit c) p) parts.

Definition well_formed (s : string) : bool :=
  negb (String.eqb s "") && lowercase s && dot_separated s.

End Name.

(** ** [struct HistogramData] *)
Record HistogramData : Set := {
  median : float;
  percentile95 : float;
  percentile99 : float;
  average : float;
  standard_deviation : float
}.

(** ** [class Ticker]

    [count_] is a [std::atomic_uint_fast64_t]: an unsigned 64-bit integer
    whose additions wrap around. *)
Record Ticker : Set := { count_ : Z }.

(** [Ticker() : count_(0)] *)
Definition Ticker_new : Ticker := {| count_ := 0 |}.

(** [recordTick()]: [count_++]. *)
Definition Ticker_recordTick (tk : Ticker) : Ticker :=
  {| count_ := Int.to_uint64 (count_ tk + 1) |}.

(** [recordTick(int count)]: [count_ += count]. The [int] operand is first
    converted to the unsigned 64-bit type of [count_], then added with
    wrap-around. *)
Definition Ticker_recordTick_int (count : Z) (tk : Ticker) : Ticker :=
  {| count_ := Int.to_uint64 (count_ tk + Int.to_uint64 count) |}.

(** [getCount()] *)
Definition Ticker_getCount (tk : Ticker) : Z := count_ tk.

(** A [Ticker] object holds a value of its field's type. *)
Definition Ticker_valid (tk : Ticker) : Prop := Int.is_uint64 (count_ tk).

(** One call of either overload, and a sequence of calls applied in order. *)
Inductive TickCall : Set :=
  | Tick                    (* recordTick() *)
  | TickBy (count : Z).     (* recordTick(count), count an int *)

Definition TickCall_valid (c : TickCall) : Prop :=
  match c with Tick => True | TickBy n => Int.is_int n end.

(** The amount a call asks to add. *)
Definition TickCall_amount (c : TickCall) : Z :=
  match c with Tick => 1 | TickBy n => n end.

Definition Ticker_call (tk : Ticker) (c : TickCall) : Ticker :=
  match c with
  | Tick => Ticker_recordTick tk
  | TickBy n => Ticker_recordTick_int n tk
  end.

Definition Ticker_calls (cs : list TickCall) (tk : Ticker) : Ticker :=
  foldl Ticker_call tk cs.

Definition total_amount (cs : list TickCall) : Z :=
  foldr (λ c acc, TickCall_amount c + acc) 0 cs.

(** ** Outcome of running a piece of the header

    A call either returns or ends the process in [abort()], which is what a
    failed [assert] does. *)
Inductive result (A : Type) : Type :=
  | Return (a : A)
  | Abort.
Arguments Return {A} a.
Arguments Abort {A}.

#[global] Instance result_ret : MRet result := @Return.
#[global] Instance result_bind : MBind result := λ A B f m,
  match m with
  | Return a => f a
  | Abort => Abort
  end.

(** [assert(cond)] from <cassert>. [NDEBUG] tells whether the translation
    unit is compiled with the macro of that name defined, in which case the
    assertion expands to nothing. *)
Definition assert (NDEBUG : bool) (cond : bool) : result unit :=
  if NDEBUG then Return ()
  else if cond then Return () else Abort.

(** ** [class Statistics]

    The class is abstract: all four methods are pure virtual, so it is an
    interface over the state [St] of whatever object implements it. None of
    the methods is [const], and nothing in the header prevents one from
    ending the process, hence the state in the results and [result]. *)
Class Statistics (St : Type) := {
  (* virtual long getTickerCount(Tickers tickerType) = 0; *)
  getTickerCount : Tickers → St → result (Z * St);
  (* virtual void recordTick(Tickers tickerType, uint64_t count = 0) = 0; *)
  recordTick : Tickers → Z → St → result St;
  (* virtual void measureTime(Histograms histogramType, uint64_t time) = 0; *)
  measureTime : Histograms → Z → St → result St;
  (* virtual void histogramData(Histograms type, HistogramData * const data) = 0; *)
  histogramData : Histograms → HistogramData → St → result (HistogramData * St)
}.

(** The default argument of the virtual method, [uint64_t count = 0]. *)
Definition recordTick_default {St : Type} `{!Statistics St}
    (tickerType : Tickers) (s : St) : result St :=
  recordTick tickerType 0 s.

(** ** [RecordTick], the ease-of-use function

    [statistics] is a [std::shared_ptr<Statistics>]: either null ([None]) or
    pointing to an object in state [s] ([Some s]). The result carries the
    state of the pointed-to object after the call. In both assertions the
    right-hand side is an [int] that the comparison converts to [size_t]. *)
Definition RecordTick {St : Type} `{!Statistics St} (NDEBUG : bool)
    (statistics : option St) (ticker : Tickers) (count : Z) : result (option St) :=
  _ ← assert NDEBUG
        (bool_decide (size HistogramsNameMap
                      = Int.to_uint64 (Histograms_value HISTOGRAM_ENUM_MAX - 1)));
  _ ← assert NDEBUG
        (bool_decide (size TickersNameMap
                      = Int.to_uint64 (Tickers_value TICKER_ENUM_MAX - 1)));
  match statistics with
  | Some s => s' ← recordTick ticker count s; mret (Some s')
  | None => mret None
  end.

(** The declaration's default argument, [uint64_t count = 1]. *)
Definition RecordTick_default {St : Type} `{!Statistics St} (NDEBUG : bool)
    (statistics : option St) (ticker : Tickers) : result (option St) :=
  RecordTick NDEBUG statistics ticker 1.

(** A run of [RecordTick] calls made one after the other through the same
    handle, each given as its ticker and count. The run stops at the first
    call that does not return. *)
Fixpoint RecordTick_each {St : Type} `{!Statistics St} (NDEBUG : bool)
    (statistics : option St) (calls : list (Tickers * Z)) : result (option St) :=
  match calls with
  | [] => mret statistics
  | (ticker, count) :: calls' =>
      statistics' ← RecordTick NDEBUG statistics ticker count;
      RecordTick_each NDEBUG statistics' calls'
  end.

(** ** An implementation that only records the calls it receives

    Its state is the list of method calls made on the object so far, which
    makes "which calls were forwarded" an observable of a run. *)
Inductive MethodCall : Set :=
  | Call_getTickerCount (tickerType : Tickers)
  | Call_recordTick (tickerType : Tickers) (count : Z)
  | Call_measureTime (histogramType : Histograms) (time : Z)
  | Call_histogramData (type : Histograms).

Definition CallLog : Type := list MethodCall.

#[global] Instance CallLog_Statistics : Statistics CallLog := {
  getTickerCount t log := Return (0, log ++ [Call_getTickerCount t]);
  recordTick t c log := Return (log ++ [Call_recordTick t c]);
  measureTime h v log := Return (log ++ [Call_measureTime h v]);
  histogramData h d log := Return (d, log ++ [Call_histogramData h])
}.

(** ** Double-precision helpers *)
Module Double.

(** Conversion of an integer to [double], rounding to nearest. *)
Definition of_Z (z : Z) : float :=
  SF2Prim (binary_normalize FloatOps.prec FloatOps.emax z 0 false).

(** [std::max(a, b)]: [b] when [a < b], otherwise [a]. *)
Definition max (a b : float) : float :=
  if (a <? b)%float then b else a.

End Double.

(** ** The histogram engine behind [class Histogram]

    The header only declares [Histogram]: every method is pure virtual and
    the implementing class lives in a file that is not part of this
    development. *)
Module HistogramEngine.

(** Modelled from the spec: the state of the class implementing
    [Histogram], which is missing. One count per bucket, a running sum of the
    samples, a running sum of their squares and the number of samples. *)
Record t : Set := {
  buckets : list Z;
  runningSum : Z;
  sumSquares : Z;
  totalSamples : Z
}.

Section Buckets.
(** The upper bound of every bucket, in ascending order. The bucket scheme
    is left open, so it is a parameter of the engine. *)
Variable limits : list Z.

(** Modelled from the spec: the missing constructor; no sample has been
    received. *)
Definition empty : t :=
  {| buckets := replicate (length limits) 0;
     runningSum := 0; sumSquares := 0; totalSamples := 0 |}.

(** Modelled from the spec: the missing [Clear()], which resets all buckets,
    the running sums and the sample count to zero. *)
Definition Clear (h : t) : t := empty.

(** Modelled from the spec: the bucket whose range contains [value], values
    above the ceiling being clamped into the last bucket (part of the
    missing [Add]). *)
Fixpoint bucket_of (ls : list Z) (value : Z) : nat :=
  match ls with
  | [] => 0%nat
  | l :: ls' =>
      match ls' with
      | [] => 0%nat
      | _ :: _ => if decide (value ≤ l) then 0%nat else S (bucket_of ls' value)
      end
  end.

(** Modelled from the spec: the missing [Add(value)]. *)
Definition Add (value : Z) (h : t) : t :=
  {| buckets := alter (λ n, n + 1) (bucket_of limits value) (buckets h);
     runningSum := runningSum h + value;
     sumSquares := sumSquares h + value * value;
     totalSamples := totalSamples h + 1 |}.

(** Modelled from the spec: the ascending walk of the missing
    [Percentile]. [lower] is the lower bound of the current bucket and
    [seen] the number of samples in the buckets before it; the result
    interpolates linearly inside the bucket where the running total reaches
    [threshold], and is the ceiling when no bucket does. *)
Fixpoint walk (threshold lower seen : float) (bs : list (Z * Z)) : float :=
  match bs with
  | [] => lower
  | (limit, n) :: bs' =>
      let upper := Double.of_Z limit in
      let reached := (seen + Double.of_Z n)%float in
      if (threshold <=? reached)%float then
        let pos :=
          if (Double.of_Z n =? 0)%float then 0%float
          else ((threshold - seen) / Double.of_Z n)%float in
        (lower + (upper - lower) * pos)%float
      else walk threshold upper reached bs'
  end.

(** Modelled from the spec: the missing [Percentile(p)]; 0 when there is no
    sample. *)
Definition Percentile (p : float) (h : t) : float :=
  if decide (totalSamples h = 0) then 0%float
  else walk (p / 100 * Double.of_Z (totalSamples h))%float 0 0
            (zip limits (buckets h)).

(** Modelled from the spec: the missing [Median()], the 50th percentile. *)
Definition Median (h : t) : float := Percentile 50 h.

(** Modelled from the spec: the missing [Average()]; 0 when there is no
    sample. *)
Definition Average (h : t) : float :=
  if decide (totalSamples h = 0) then 0%float
  else (Double.of_Z (runningSum h) / Double.of_Z (totalSamples h))%float.

(** Modelled from the spec: the missing [StandardDeviation()],
    [sqrt(max(0, sumSquares/totalSamples - average^2))]. *)
Definition StandardDeviation (h : t) : float :=
  PrimFloat.sqrt
    (Double.max 0
       (Double.of_Z (sumSquares h) / Double.of_Z (totalSamples h)
        - Average h * Average h))%float.

(** Modelled from the spec: the missing [Data(data)], all five fields
    computed in one call. *)
Definition Data (h : t) : HistogramData :=
  {| median := Median h;
     percentile95 := Percentile 95 h;
     percentile99 := Percentile 99 h;
     average := Average h;
     standard_deviation := StandardDeviation h |}.
End Buckets.

End HistogramEngine.

(** ** The registry behind [CreateDBStatistics]

    The header declares the factory [CreateDBStatistics()] and nothing of the
    class it instantiates. *)
Module DBStatistics.

(** Modelled from the spec: the state of the registry returned by
    [CreateDBStatistics], which is missing. It owns one [Ticker] per ticker
    identifier and one histogram engine per histogram identifier, each stored
    at the position given by the identifier's value. *)
Record t : Set := {
  tickers : list Ticker;
  histograms : list HistogramEngine.t
}.

Section Registry.
Variable limits : list Z.

(** Modelled from the spec: the missing body of [CreateDBStatistics], a
    fully initialised registry with every ticker and histogram
    pre-populated and zero-valued. *)
Definition CreateDBStatistics : t :=
  {| tickers := replicate (Z.to_nat (Tickers_value TICKER_ENUM_MAX)) Ticker_new;
     histograms := replicate (Z.to_nat (Histograms_value HISTOGRAM_ENUM_MAX))
                             (HistogramEngine.empty limits) |}.

Definition ticker_index (id : Tickers) : nat := Z.to_nat (Tickers_value id).
Definition histogram_index (id : Histograms) : nat := Z.to_nat (Histograms_value id).

(** Modelled from the spec: the missing [getTickerCount], which forwards to
    the matching ticker's [getCount()]; the declared result type is [long].
    An identifier outside the range is fatal. *)
Definition DB_getTickerCount (id : Tickers) (r : t) : result (Z * t) :=
  match tickers r !! ticker_index id with
  | Some tk => Return (Int.to_long (Ticker_getCount tk), r)
  | None => Abort
  end.

(** Modelled from the spec: the missing [recordTick], which forwards to the
    matching ticker's [recordTick]; the 64-bit count is narrowed to that
    method's [int] parameter. *)
Definition DB_recordTick (id : Tickers) (count : Z) (r : t) : result t :=
  match tickers r !! ticker_index id with
  | Some tk =>
      Return {| tickers := <[ticker_index id :=
                               Ticker_recordTick_int (Int.to_int count) tk]> (tickers r);
                histograms := histograms r |}
  | None => Abort
  end.

(** Modelled from the spec: the missing [measureTime], which forwards to
    the matching engine's [Add]. *)
Definition DB_measureTime (id : Histograms) (time : Z) (r : t) : result t :=
  match histograms r !! histogram_index id with
  | Some h =>
      Return {| tickers := tickers r;
                histograms := <[histogram_index id :=
                                  HistogramEngine.Add limits time h]> (histograms r) |}
  | None => Abort
  end.

(** Modelled from the spec: the missing [histogramData], which forwards to
    the matching engine's [Data]. *)
Definition DB_histogramData (id : Histograms) (data : HistogramData) (r : t)
    : result (HistogramData * t) :=
  match histograms r !! histogram_index id with
  | Some h => Return (HistogramEngine.Data limits h, r)
  | None => Abort
  end.

#[export] Instance DBStatistics_Statistics : Statistics t := {
  getTickerCount := DB_getTickerCount;
  recordTick := DB_recordTick;
  measureTime := DB_measureTime;
  histogramData := DB_histogramData
}.
End Registry.

End DBStatistics.

(** * Properties *)

(** ** The catalogs *)

Lemma TickersNameMap_size : size TickersNameMap = Tickers_value TICKER_ENUM_MAX.
Proof. reflexivity. Qed.

Lemma HistogramsNameMap_size :
  size HistogramsNameMap = Histograms_value HISTOGRAM_ENUM_MAX.
Proof. reflexivity. Qed.

Lemma TickersNameMap_listed :
  listed_values Tickers_value TickersNameMap
  = seqZ 0 (Tickers_value TICKER_ENUM_MAX).
Proof. reflexivity. Qed.

Lemma HistogramsNameMap_listed :
  listed_values Histograms_value HistogramsNameMap
  = seqZ 0 (Histograms_value HISTOGRAM_ENUM_MAX).
Proof. reflexivity. Qed.

(** A catalog that lists the values [0, 1, ..., n-1] in this order has
    exactly one entry for each of them. *)
Section Listed.
Context {Id : Type} (value : Id → Z).

Lemma entries_of_length (m : list (Id * string)) (z : Z) :
  length (entries_of value m z)
  = length (filter (λ v, v = z) (listed_values value m)).
Proof.
  unfold entries_of, listed_values.
  induction m as [|e m IH]; [done|].
  rewrite fmap_cons, !filter_cons. cbn.
  destruct (decide (value e.1 = z)); cbn; by rewrite IH.
Qed.

Lemma filter_eq_absent (l : list Z) (z : Z) :
  z ∉ l → filter (λ v, v = z) l = [].
Proof.
  induction l as [|v l IH]; [done|].
  intros [Hne Hl]%not_elem_of_cons. rewrite filter_cons.
  destruct (decide (v = z)); [congruence|auto].
Qed.

Lemma filter_eq_NoDup (l : list Z) (z : Z) :
  NoDup l → z ∈ l → length (filter (λ v, v = z) l) = 1%nat.
Proof.
  induction 1 as [|v l Hv Hnd IH]; [by intros ?%elem_of_nil|].
  intros Hz. rewrite filter_cons. destruct (decide (v = z)) as [->|Hne].
  - by rewrite filter_eq_absent.
  - apply elem_of_cons in Hz as [?|?]; [congruence|auto].
Qed.

Lemma listed_one_entry (m : list (Id * string)) (n z : Z) :
  listed_values value m = seqZ 0 n → 0 ≤ z < n →
  length (entries_of value m z) = 1%nat.
Proof.
  intros Hm Hz. rewrite entries_of_length, Hm.
  apply filter_eq_NoDup; [apply NoDup_seqZ|].
  apply elem_of_seqZ. lia.
Qed.

Lemma listed_lookup (m : list (Id * string)) (n : Z) (i : nat) (e : Id * string) :
  listed_values value m = seqZ 0 n → m !! i = Some e →
  value e.1 = Z.of_nat i.
Proof.
  intros Hm He.
  assert (listed_values value m !! i = Some (value e.1)) as Hv
    by (unfold listed_values; by rewrite list_lookup_fmap, He).
  rewrite Hm in Hv. apply lookup_seqZ in Hv. lia.
Qed.

Lemma listed_name_at (m : list (Id * string)) (n : Z) (i : nat) (e : Id * string) :
  listed_values value m = seqZ 0 n → m !! i = Some e →
  name_at m (value e.1) = Some e.2.
Proof.
  intros Hm He. rewrite (listed_lookup m n i e Hm He).
  unfold name_at. case_decide; [|lia].
  by rewrite Nat2Z.id, He.
Qed.
End Listed.

Lemma TickersNameMap_names_NoDup : NoDup TickersNameMap.*2.
Proof. apply (bool_decide_unpack _). by vm_compute. Qed.

Lemma HistogramsNameMap_names_NoDup : NoDup HistogramsNameMap.*2.
Proof. apply (bool_decide_unpack _). by vm_compute. Qed.

(** Entries of a list of pairs whose second components are pairwise distinct
    agree on the first component as soon as they agree on the second. *)
Lemma NoDup_snd_inj {A B} (m : list (A * B)) (a1 a2 : A) (b : B) :
  NoDup m.*2 → (a1, b) ∈ m → (a2, b) ∈ m → a1 = a2.
Proof.
  intros Hnd [i Hi]%list_elem_of_lookup [j Hj]%list_elem_of_lookup.
  assert (m.*2 !! i = Some b) as Hi' by (by rewrite list_lookup_fmap, Hi).
  assert (m.*2 !! j = Some b) as Hj' by (by rewrite list_lookup_fmap, Hj).
  pose proof (NoDup_lookup _ _ _ _ Hnd Hi' Hj') as ->.
  congruence.
Qed.

(** C2. Every ticker value below [TICKER_ENUM_MAX] and every histogram value
    below [HISTOGRAM_ENUM_MAX] has exactly one entry in its name map; the
    size of each map is the cardinality of its enumeration
    ([TICKER_ENUM_MAX], [HISTOGRAM_ENUM_MAX]); and every name is non-empty,
    has no upper-case letter and consists of dot-separated components. *)
Theorem name_table_invariant (t h : Z) :
  0 ≤ t < Tickers_value TICKER_ENUM_MAX →
  0 ≤ h < Histograms_value HISTOGRAM_ENUM_MAX →
  length (entries_of Tickers_value TickersNameMap t) = 1%nat
  ∧ length (entries_of Histograms_value HistogramsNameMap h) = 1%nat
  ∧ size TickersNameMap = Tickers_value TICKER_ENUM_MAX
  ∧ size HistogramsNameMap = Histograms_value HISTOGRAM_ENUM_MAX
  ∧ Forall (λ e, Name.well_formed e.2 = true) TickersNameMap
  ∧ Forall (λ e, Name.well_formed e.2 = true) HistogramsNameMap.
Proof.
  intros Ht Hh. split_and!.
  - by apply (listed_one_entry _ _ _ _ TickersNameMap_listed).
  - by apply (listed_one_entry _ _ _ _ HistogramsNameMap_listed).
  - apply TickersNameMap_size.
  - apply HistogramsNameMap_size.
  - unfold TickersNameMap. repeat constructor.
  - unfold HistogramsNameMap. repeat constructor.
Qed.

Lemma name_table_invariant_witness :
  length (entries_of Tickers_value TickersNameMap 13) = 1%nat
  ∧ length (entries_of Histograms_value HistogramsNameMap 8) = 1%nat
  ∧ size TickersNameMap = Tickers_value TICKER_ENUM_MAX
  ∧ size HistogramsNameMap = Histograms_value HISTOGRAM_ENUM_MAX
  ∧ Forall (λ e, Name.well_formed e.2 = true) TickersNameMap
  ∧ Forall (λ e, Name.well_formed e.2 = true) HistogramsNameMap.
Proof. apply (name_table_invariant 13 8); cbn; lia. Defined.

(** C9. Within each name map, two entries carrying the same name carry the
    same identifier: distinct identifiers never share a name. *)
Theorem names_injective (t1 t2 : Tickers) (h1 h2 : Histograms) (n m : string) :
  (t1, n) ∈ TickersNameMap → (t2, n) ∈ TickersNameMap →
  (h1, m) ∈ HistogramsNameMap → (h2, m) ∈ HistogramsNameMap →
  t1 = t2 ∧ h1 = h2.
Proof.
  intros Ht1 Ht2 Hh1 Hh2. split.
  - exact (NoDup_snd_inj _ _ _ _ TickersNameMap_names_NoDup Ht1 Ht2).
  - exact (NoDup_snd_inj _ _ _ _ HistogramsNameMap_names_NoDup Hh1 Hh2).
Qed.

Lemma names_injective_witness : BYTES_READ = BYTES_READ ∧ DB_WRITE = DB_WRITE.
Proof.
  apply (names_injective BYTES_READ BYTES_READ DB_WRITE DB_WRITE
           "rocksdb.bytes.read" "rocksdb.db.write.micros");
    apply list_elem_of_In; cbn; tauto.
Defined.

(** C10. Both name maps are listed in identifier order without gaps: the
    entry at position [i] carries the identifier of value [i], so looking a
    name up by position, the position being the identifier's value, gives
    the name of that identifier. *)
Theorem name_maps_in_identifier_order
    (i j : nat) (e : Tickers * string) (f : Histograms * string) :
  TickersNameMap !! i = Some e → HistogramsNameMap !! j = Some f →
  Tickers_value e.1 = Z.of_nat i
  ∧ Histograms_value f.1 = Z.of_nat j
  ∧ name_at TickersNameMap (Tickers_value e.1) = Some e.2
  ∧ name_at HistogramsNameMap (Histograms_value f.1) = Some f.2.
Proof.
  intros He Hf. split_and!.
  - exact (listed_lookup _ _ _ _ _ TickersNameMap_listed He).
  - exact (listed_lookup _ _ _ _ _ HistogramsNameMap_listed Hf).
  - exact (listed_name_at _ _ _ _ _ TickersNameMap_listed He).
  - exact (listed_name_at _ _ _ _ _ HistogramsNameMap_listed Hf).
Qed.

Lemma name_maps_in_identifier_order_witness :
  Tickers_value NO_ITERATORS = 17
  ∧ Histograms_value TABLE_SYNC_MICROS = 3
  ∧ name_at TickersNameMap (Tickers_value NO_ITERATORS) = Some "rocksdb.num.iterators"
  ∧ name_at HistogramsNameMap (Histograms_value TABLE_SYNC_MICROS)
    = Some "rocksdb.table.sync.micros".
Proof.
  apply (name_maps_in_identifier_order 17 3
           (NO_ITERATORS, "rocksdb.num.iterators")
           (TABLE_SYNC_MICROS, "rocksdb.table.sync.micros")); reflexivity.
Defined.

(** ** The [Ticker] counter *)

Lemma uint64_modulus_eq : Int.uint64_modulus = 18446744073709551616.
Proof. reflexivity. Qed.

Lemma Ticker_new_valid : Ticker_valid Ticker_new.
Proof. unfold Ticker_valid, Int.is_uint64. rewrite uint64_modulus_eq. cbn. lia. Qed.

(** Both overloads add the requested amount modulo 2^64. *)
Lemma Ticker_call_count (tk : Ticker) (c : TickCall) :
  count_ (Ticker_call tk c) = Int.to_uint64 (count_ tk + TickCall_amount c).
Proof.
  destruct c as [|n]; cbn; [done|].
  unfold Int.to_uint64. by rewrite Zplus_mod_idemp_r.
Qed.

Lemma Ticker_call_valid (tk : Ticker) (c : TickCall) : Ticker_valid (Ticker_call tk c).
Proof.
  unfold Ticker_valid, Int.is_uint64. rewrite Ticker_call_count.
  apply Z.mod_pos_bound. by rewrite uint64_modulus_eq.
Qed.

Lemma Ticker_calls_count (cs : list TickCall) (tk : Ticker) :
  Ticker_valid tk →
  count_ (Ticker_calls cs tk) = Int.to_uint64 (count_ tk + total_amount cs).
Proof.
  unfold Ticker_calls. revert tk.
  induction cs as [|c cs IH]; intros tk Htk.
  - cbn. unfold Int.to_uint64. rewrite Z.add_0_r, Z.mod_small; [done|apply Htk].
  - change (total_amount (c :: cs)) with (TickCall_amount c + total_amount cs).
    change (foldl Ticker_call tk (c :: cs))
      with (foldl Ticker_call (Ticker_call tk c) cs).
    rewrite IH by apply Ticker_call_valid.
    rewrite Ticker_call_count. unfold Int.to_uint64.
    rewrite Zplus_mod_idemp_l. f_equal. lia.
Qed.

(** C4. After any sequence of [recordTick] calls ([int] counts, or no count
    for an increment of one) applied in order to a freshly constructed
    [Ticker], [getCount()] is the sum of the requested amounts reduced
    modulo 2^64. *)
Theorem Ticker_count_is_sum (cs : list TickCall) :
  Forall TickCall_valid cs →
  Ticker_getCount (Ticker_calls cs Ticker_new) = Int.to_uint64 (total_amount cs).
Proof.
  intros _. unfold Ticker_getCount.
  by rewrite Ticker_calls_count by apply Ticker_new_valid.
Qed.

Lemma Ticker_count_is_sum_witness :
  Ticker_getCount (Ticker_calls [Tick; TickBy 40; TickBy 2147483647; Tick] Ticker_new)
  = Int.to_uint64 (total_amount [Tick; TickBy 40; TickBy 2147483647; Tick]).
Proof.
  apply (Ticker_count_is_sum [Tick; TickBy 40; TickBy 2147483647; Tick]).
  repeat (constructor;
          [cbn; unfold Int.is_int, Int.int_min, Int.int_max; first [exact I|lia]|]).
  constructor.
Defined.

(** C5, as the code has it. At the top of the 64-bit range an increment wraps
    the counter around to zero, so the count goes down. *)
Lemma Ticker_recordTick_wraps :
  Ticker_valid {| count_ := 18446744073709551615 |}
  ∧ Ticker_getCount (Ticker_recordTick {| count_ := 18446744073709551615 |}) = 0
  ∧ Ticker_getCount (Ticker_recordTick {| count_ := 18446744073709551615 |})
    < Ticker_getCount {| count_ := 18446744073709551615 |}.
Proof.
  unfold Ticker_valid, Int.is_uint64. rewrite uint64_modulus_eq.
  split_and!; by vm_compute.
Qed.

(** C5, amended. For a call that asks for a non-negative amount, the count
    after the call is at least the count before it exactly when the addition
    stays below 2^64, and it is then the old count plus the amount. *)
Theorem Ticker_monotone_unless_wraparound (tk : Ticker) (c : TickCall) :
  Ticker_valid tk → TickCall_valid c → 0 ≤ TickCall_amount c →
  (Ticker_getCount tk ≤ Ticker_getCount (Ticker_call tk c)
   ↔ Ticker_getCount tk + TickCall_amount c < Int.uint64_modulus)
  ∧ (Ticker_getCount tk + TickCall_amount c < Int.uint64_modulus →
     Ticker_getCount (Ticker_call tk c) = Ticker_getCount tk + TickCall_amount c).
Proof.
  unfold Ticker_valid, Int.is_uint64, Ticker_getCount.
  intros Htk Hc Ha. rewrite Ticker_call_count. unfold Int.to_uint64.
  assert (TickCall_amount c < Int.uint64_modulus) as Hlt.
  { rewrite uint64_modulus_eq.
    destruct c as [|n]; cbn in *; [lia|].
    unfold Int.is_int, Int.int_max in Hc. lia. }
  rewrite uint64_modulus_eq in *.
  split; [split|]; intros H.
  - destruct (decide (count_ tk + TickCall_amount c < 18446744073709551616));
      [done|].
    exfalso. Z.div_mod_to_equations. lia.
  - rewrite Z.mod_small by lia. lia.
  - rewrite Z.mod_small by lia. lia.
Qed.

Lemma Ticker_monotone_unless_wraparound_witness :
  (Ticker_getCount {| count_ := 7 |}
   ≤ Ticker_getCount (Ticker_call {| count_ := 7 |} (TickBy 5))
   ↔ Ticker_getCount {| count_ := 7 |} + TickCall_amount (TickBy 5)
     < Int.uint64_modulus)
  ∧ (Ticker_getCount {| count_ := 7 |} + TickCall_amount (TickBy 5)
     < Int.uint64_modulus →
     Ticker_getCount (Ticker_call {| count_ := 7 |} (TickBy 5))
     = Ticker_getCount {| count_ := 7 |} + TickCall_amount (TickBy 5)).
Proof.
  apply (Ticker_monotone_unless_wraparound {| count_ := 7 |} (TickBy 5)).
  - unfold Ticker_valid, Int.is_uint64. rewrite uint64_modulus_eq. cbn. lia.
  - cbn. unfold Int.is_int, Int.int_min, Int.int_max. lia.
  - cbn. lia.
Defined.

(** The [int] overload accepts a negative count, which takes the counter
    down. *)
Lemma Ticker_recordTick_int_negative :
  Ticker_getCount (Ticker_recordTick_int (-1) {| count_ := 5 |}) = 4.
Proof. reflexivity. Qed.

(** C7. A freshly constructed [Ticker] reads zero, and so does every ticker
    identifier of a newly created registry. *)
Theorem fresh_Ticker_is_zero (limits : list Z) (t : Tickers) :
  Tickers_value t < Tickers_value TICKER_ENUM_MAX →
  Ticker_getCount Ticker_new = 0
  ∧ DBStatistics.DB_getTickerCount t (DBStatistics.CreateDBStatistics limits)
    = Return (0, DBStatistics.CreateDBStatistics limits).
Proof.
  intros Ht. split; [reflexivity|].
  destruct t; try reflexivity. cbn in Ht. lia.
Qed.

Lemma fresh_Ticker_is_zero_witness :
  Ticker_getCount Ticker_new = 0
  ∧ DBStatistics.DB_getTickerCount NUMBER_KEYS_READ
      (DBStatistics.CreateDBStatistics [1; 2; 5; 10])
    = Return (0, DBStatistics.CreateDBStatistics [1; 2; 5; 10]).
Proof. apply (fresh_Ticker_is_zero [1; 2; 5; 10] NUMBER_KEYS_READ). cbn. lia. Defined.

(** ** The empty histogram *)

(** C8. For a histogram engine that has received no sample, whether freshly
    built or just cleared, [Median()], [Percentile(p)] for every [p],
    [Average()] and [StandardDeviation()] are all zero. *)
Theorem empty_histogram_is_zero (limits : list Z) (p : float) (h : HistogramEngine.t) :
  HistogramEngine.Median limits (HistogramEngine.empty limits) = 0%float
  ∧ HistogramEngine.Percentile limits p (HistogramEngine.empty limits) = 0%float
  ∧ HistogramEngine.Average (HistogramEngine.empty limits) = 0%float
  ∧ HistogramEngine.StandardDeviation (HistogramEngine.empty limits) = 0%float
  ∧ HistogramEngine.Data limits (HistogramEngine.empty limits)
    = {| median := 0; percentile95 := 0; percentile99 := 0;
         average := 0; standard_deviation := 0 |}
  ∧ HistogramEngine.Clear limits h = HistogramEngine.empty limits.
Proof. split_and!; reflexivity. Qed.

(** ** [RecordTick] *)

Section RecordTick.
Context {St : Type} `{!Statistics St}.

Lemma assert_NDEBUG (cond : bool) : assert true cond = Return ().
Proof. reflexivity. Qed.

Lemma assert_false : assert false false = Abort.
Proof. reflexivity. Qed.

(** With the assertions compiled out the function is its last statement. *)
Lemma RecordTick_NDEBUG (statistics : option St) (ticker : Tickers) (count : Z) :
  RecordTick true statistics ticker count
  = match statistics with
    | Some s => s' ← recordTick ticker count s; mret (Some s')
    | None => mret None
    end.
Proof. reflexivity. Qed.

(** With the assertions compiled in the first of them already fails. *)
Lemma RecordTick_asserting (statistics : option St) (ticker : Tickers) (count : Z) :
  RecordTick false statistics ticker count = Abort.
Proof. reflexivity. Qed.
End RecordTick.

(** C1, on the code. The two conditions asserted by [RecordTick] are false
    for the catalogs as defined: each catalog has as many entries as its
    enumeration's [..._ENUM_MAX], not one fewer. With assertions compiled in,
    every call therefore aborts. *)
Theorem RecordTick_assertions_fail {St : Type} `{!Statistics St}
    (statistics : option St) (ticker : Tickers) (count : Z) :
  bool_decide (size HistogramsNameMap
               = Int.to_uint64 (Histograms_value HISTOGRAM_ENUM_MAX - 1)) = false
  ∧ bool_decide (size TickersNameMap
                 = Int.to_uint64 (Tickers_value TICKER_ENUM_MAX - 1)) = false
  ∧ size HistogramsNameMap = 9 ∧ Histograms_value HISTOGRAM_ENUM_MAX - 1 = 8
  ∧ size TickersNameMap = 21 ∧ Tickers_value TICKER_ENUM_MAX - 1 = 20
  ∧ RecordTick false statistics ticker count = Abort.
Proof. split_and!; [reflexivity..|apply RecordTick_asserting]. Qed.

(** C3, on the code. With a null handle [RecordTick] makes no call on any
    object; it returns normally when the assertions are compiled out and
    aborts on the first assertion when they are compiled in. *)
Theorem RecordTick_null_handle {St : Type} `{!Statistics St}
    (NDEBUG : bool) (ticker : Tickers) (count : Z) :
  RecordTick (St := St) NDEBUG None ticker count
  = if NDEBUG then Return None else Abort.
Proof.
  destruct NDEBUG; [by rewrite RecordTick_NDEBUG|apply RecordTick_asserting].
Qed.

(** C6, on the code. With a non-null handle and the assertions compiled out,
    [RecordTick] is the single call [statistics->recordTick(ticker, count)],
    the omitted count being 1; on the call-recording implementation that is
    one more recorded call, with the same ticker and count. With the
    assertions compiled in, nothing is forwarded: the call aborts. *)
Theorem RecordTick_forwards {St : Type} `{!Statistics St}
    (NDEBUG : bool) (s : St) (log : CallLog) (ticker : Tickers) (count : Z) :
  RecordTick NDEBUG (Some s) ticker count
  = (if NDEBUG then s' ← recordTick ticker count s; mret (Some s') else Abort)
  ∧ RecordTick_default NDEBUG (Some s) ticker
    = (if NDEBUG then s' ← recordTick ticker 1 s; mret (Some s') else Abort)
  ∧ RecordTick NDEBUG (Some log) ticker count
    = (if NDEBUG then Return (Some (log ++ [Call_recordTick ticker count]))
       else Abort)
  ∧ RecordTick_default NDEBUG (Some log) ticker
    = (if NDEBUG then Return (Some (log ++ [Call_recordTick ticker 1]))
       else Abort).
Proof.
  destruct NDEBUG.
  - unfold RecordTick_default. rewrite !RecordTick_NDEBUG. by split_and!.
  - unfold RecordTick_default. rewrite !RecordTick_asserting. by split_and!.
Qed.

(** * Further properties of the header *)

(** ** The enumerations and their catalogs *)

Lemma Tickers_value_inj (t1 t2 : Tickers) :
  Tickers_value t1 = Tickers_value t2 → t1 = t2.
Proof. destruct t1, t2; first [reflexivity|discriminate]. Qed.

Lemma Histograms_value_inj (h1 h2 : Histograms) :
  Histograms_value h1 = Histograms_value h2 → h1 = h2.
Proof. destruct h1, h2; first [reflexivity|discriminate]. Qed.

(** X1. No two enumerators of [Tickers], and no two of [Histograms], share a
    value; every value is non-negative and at most the sentinel's, which only
    the sentinel reaches. *)
Theorem enumerators_distinct_below_max
    (t1 t2 : Tickers) (h1 h2 : Histograms) :
  Tickers_value t1 = Tickers_value t2 →
  Histograms_value h1 = Histograms_value h2 →
  t1 = t2 ∧ h1 = h2
  ∧ 0 ≤ Tickers_value t1
  ∧ (Tickers_value t1 < Tickers_value TICKER_ENUM_MAX ∨ t1 = TICKER_ENUM_MAX)
  ∧ 0 ≤ Histograms_value h1
  ∧ (Histograms_value h1 < Histograms_value HISTOGRAM_ENUM_MAX
     ∨ h1 = HISTOGRAM_ENUM_MAX).
Proof.
  intros Ht Hh. split_and!.
  - by apply Tickers_value_inj.
  - by apply Histograms_value_inj.
  - destruct t1; cbn; lia.
  - destruct t1; cbn; first [by right|left; lia].
  - destruct h1; cbn; lia.
  - destruct h1; cbn; first [by right|left; lia].
Qed.

Lemma enumerators_distinct_below_max_witness :
  NO_FILE_OPENS = NO_FILE_OPENS ∧ DB_MULTIGET = DB_MULTIGET
  ∧ 0 ≤ Tickers_value NO_FILE_OPENS
  ∧ (Tickers_value NO_FILE_OPENS < Tickers_value TICKER_ENUM_MAX
     ∨ NO_FILE_OPENS = TICKER_ENUM_MAX)
  ∧ 0 ≤ Histograms_value DB_MULTIGET
  ∧ (Histograms_value DB_MULTIGET < Histograms_value HISTOGRAM_ENUM_MAX
     ∨ DB_MULTIGET = HISTOGRAM_ENUM_MAX).
Proof.
  apply (enumerators_distinct_below_max
           NO_FILE_OPENS NO_FILE_OPENS DB_MULTIGET DB_MULTIGET); reflexivity.
Defined.

(** An identifier has an entry in a catalog exactly when it is among the
    identifiers the catalog lists. *)
Lemma named_iff_listed {Id : Type} (m : list (Id * string)) (id : Id) :
  (∃ n, (id, n) ∈ m) ↔ id ∈ m.*1.
Proof.
  rewrite list_elem_of_fmap. split.
  - intros [n Hn]. by exists (id, n).
  - intros [[id' n] [-> Hn]]. by exists n.
Qed.

(** X2. Every enumerator but the sentinel has a name in its catalog, and the
    sentinel has none. *)
Theorem named_iff_not_sentinel (t : Tickers) (h : Histograms) :
  ((∃ n, (t, n) ∈ TickersNameMap) ↔ t ≠ TICKER_ENUM_MAX)
  ∧ ((∃ n, (h, n) ∈ HistogramsNameMap) ↔ h ≠ HISTOGRAM_ENUM_MAX).
Proof.
  rewrite !named_iff_listed. split.
  - destruct (decide (t = TICKER_ENUM_MAX)) as [->|Hne].
    + split; [|done]. intros Hin. exfalso. revert Hin.
      apply (bool_decide_unpack _). by vm_compute.
    + split; [done|]. intros _.
      destruct t; first [done|by apply (bool_decide_unpack _)].
  - destruct (decide (h = HISTOGRAM_ENUM_MAX)) as [->|Hne].
    + split; [|done]. intros Hin. exfalso. revert Hin.
      apply (bool_decide_unpack _). by vm_compute.
    + split; [done|]. intros _.
      destruct h; first [done|by apply (bool_decide_unpack _)].
Qed.

(** X3. The thirty names of the two catalogs taken together are pairwise
    distinct: no ticker shares its name with another ticker or with a
    histogram. *)
Theorem names_distinct_across_catalogs :
  NoDup (TickersNameMap.*2 ++ HistogramsNameMap.*2)
  ∧ length (TickersNameMap.*2 ++ HistogramsNameMap.*2) = 30%nat.
Proof. split; [|reflexivity]. apply (bool_decide_unpack _). by vm_compute. Qed.

(** X4. Every histogram name starts with [rocksdb.] and ends with
    [.micros]. *)
Theorem HistogramsNameMap_names_shape (h : Histograms) (n : string) :
  (h, n) ∈ HistogramsNameMap →
  Name.chars "rocksdb." `prefix_of` Name.chars n
  ∧ Name.chars ".micros" `suffix_of` Name.chars n.
Proof.
  intros Hn.
  assert (Forall (λ e, Name.chars "rocksdb." `prefix_of` Name.chars e.2
                       ∧ Name.chars ".micros" `suffix_of` Name.chars e.2)
                 HistogramsNameMap) as Hall
    by (apply (bool_decide_unpack _); by vm_compute).
  rewrite Forall_forall in Hall. exact (Hall _ Hn).
Qed.

Lemma HistogramsNameMap_names_shape_witness :
  Name.chars "rocksdb." `prefix_of` Name.chars "rocksdb.db.get.micros"
  ∧ Name.chars ".micros" `suffix_of` Name.chars "rocksdb.db.get.micros".
Proof.
  apply (HistogramsNameMap_names_shape DB_GET "rocksdb.db.get.micros").
  apply list_elem_of_In. cbn. tauto.
Defined.

(** X5. Every ticker name starts with [rocksdb.] except the name of
    [BLOCK_CACHE_MISS], which is spelled [levledb.block.cache.miss]. *)
Theorem TickersNameMap_names_prefix (t : Tickers) (n : string) :
  (t, n) ∈ TickersNameMap →
  if decide (t = BLOCK_CACHE_MISS)
  then n = "levledb.block.cache.miss"%string
  else Name.chars "rocksdb." `prefix_of` Name.chars n.
Proof.
  intros Hn.
  assert (Forall (λ e, if decide (e.1 = BLOCK_CACHE_MISS)
                       then e.2 = "levledb.block.cache.miss"%string
                       else Name.chars "rocksdb." `prefix_of` Name.chars e.2)
                 TickersNameMap) as Hall.
  { unfold TickersNameMap.
    repeat (constructor; [cbn [fst snd]; case_decide;
                          [try discriminate; reflexivity
                          |try done; apply (bool_decide_unpack _); by vm_compute]|]).
    constructor. }
  rewrite Forall_forall in Hall. exact (Hall _ Hn).
Qed.

Lemma TickersNameMap_names_prefix_witness :
  if decide (BYTES_WRITTEN = BLOCK_CACHE_MISS)
  then "rocksdb.bytes.written"%string = "levledb.block.cache.miss"%string
  else Name.chars "rocksdb." `prefix_of` Name.chars "rocksdb.bytes.written".
Proof.
  apply (TickersNameMap_names_prefix BYTES_WRITTEN "rocksdb.bytes.written").
  apply list_elem_of_In. cbn. tauto.
Defined.

(** ** More on the [Ticker] counter *)

Lemma Ticker_eq (a b : Ticker) : count_ a = count_ b → a = b.
Proof. destruct a, b; cbn; congruence. Qed.

(** The order of two calls does not matter. *)
Lemma Ticker_call_comm (tk : Ticker) (a b : TickCall) :
  Ticker_call (Ticker_call tk a) b = Ticker_call (Ticker_call tk b) a.
Proof.
  apply Ticker_eq. rewrite !Ticker_call_count. unfold Int.to_uint64.
  rewrite !Zplus_mod_idemp_l. f_equal. lia.
Qed.

(** X6. A run of [recordTick] calls on a counter leaves it as the single call
    [recordTick(total)] would, whenever the total of the requested amounts
    fits the [int] parameter; in particular [recordTick()] is
    [recordTick(1)]. *)
Theorem Ticker_calls_as_one_call (cs : list TickCall) (tk : Ticker) :
  Ticker_valid tk → Int.is_int (total_amount cs) →
  Ticker_calls cs tk = Ticker_recordTick_int (total_amount cs) tk.
Proof.
  intros Htk _. apply Ticker_eq. rewrite Ticker_calls_count by done.
  cbn. unfold Int.to_uint64. by rewrite Zplus_mod_idemp_r.
Qed.

Lemma Ticker_calls_as_one_call_witness :
  Ticker_calls [Tick; TickBy 9; TickBy (-3); Tick] {| count_ := 100 |}
  = Ticker_recordTick_int (total_amount [Tick; TickBy 9; TickBy (-3); Tick])
      {| count_ := 100 |}.
Proof.
  apply (Ticker_calls_as_one_call [Tick; TickBy 9; TickBy (-3); Tick]
           {| count_ := 100 |}).
  - unfold Ticker_valid, Int.is_uint64. rewrite uint64_modulus_eq. cbn. lia.
  - unfold Int.is_int, Int.int_min, Int.int_max. cbn. lia.
Defined.

(** X7. The counter a run of calls leaves does not depend on the order of
    the calls. *)
Theorem Ticker_calls_order_irrelevant (cs1 cs2 : list TickCall) (tk : Ticker) :
  cs1 ≡ₚ cs2 → Ticker_calls cs1 tk = Ticker_calls cs2 tk.
Proof.
  unfold Ticker_calls. intros Hp. revert tk.
  induction Hp as [|c cs1 cs2 _ IH|a b cs|cs1 cs2 cs3 _ IH1 _ IH2]; intros tk.
  - done.
  - cbn. apply IH.
  - cbn. by rewrite Ticker_call_comm.
  - by rewrite IH1.
Qed.

Lemma Ticker_calls_order_irrelevant_witness :
  Ticker_calls [TickBy 4; Tick; TickBy (-2)] Ticker_new
  = Ticker_calls [Tick; TickBy (-2); TickBy 4] Ticker_new.
Proof.
  apply (Ticker_calls_order_irrelevant
           [TickBy 4; Tick; TickBy (-2)] [Tick; TickBy (-2); TickBy 4] Ticker_new).
  exact (Permutation_cons_append [Tick; TickBy (-2)] (TickBy 4)).
Defined.

Lemma total_amount_app (cs1 cs2 : list TickCall) :
  total_amount (cs1 ++ cs2) = total_amount cs1 + total_amount cs2.
Proof.
  unfold total_amount. induction cs1 as [|c cs1 IH]; cbn; [done|].
  rewrite IH. lia.
Qed.

Lemma total_amount_nonneg (cs : list TickCall) :
  Forall (λ c, 0 ≤ TickCall_amount c) cs → 0 ≤ total_amount cs.
Proof.
  unfold total_amount. induction 1 as [|c cs Hc _ IH]; cbn; lia.
Qed.

(** X8. While the requested amounts are non-negative and the count stays
    below 2^64, the counter is exact and never goes down: after any first part
    of a run it is the starting count plus the amounts requested so far. *)
Theorem Ticker_calls_exact_below_wraparound
    (cs1 cs2 : list TickCall) (tk : Ticker) :
  Ticker_valid tk →
  Forall (λ c, 0 ≤ TickCall_amount c) (cs1 ++ cs2) →
  Ticker_getCount tk + total_amount (cs1 ++ cs2) < Int.uint64_modulus →
  Ticker_getCount (Ticker_calls cs1 tk) = Ticker_getCount tk + total_amount cs1
  ∧ Ticker_getCount (Ticker_calls (cs1 ++ cs2) tk)
    = Ticker_getCount tk + total_amount (cs1 ++ cs2)
  ∧ Ticker_getCount tk ≤ Ticker_getCount (Ticker_calls cs1 tk)
  ∧ Ticker_getCount (Ticker_calls cs1 tk)
    ≤ Ticker_getCount (Ticker_calls (cs1 ++ cs2) tk).
Proof.
  unfold Ticker_getCount. intros Htk [H1 H2]%Forall_app Hlt.
  apply total_amount_nonneg in H1, H2.
  rewrite total_amount_app in *.
  rewrite !Ticker_calls_count by done. rewrite total_amount_app.
  unfold Ticker_valid, Int.is_uint64, Int.to_uint64 in *.
  rewrite !Z.mod_small by lia. lia.
Qed.

Lemma Ticker_calls_exact_below_wraparound_witness :
  Ticker_getCount (Ticker_calls [Tick; TickBy 6] {| count_ := 10 |})
  = Ticker_getCount {| count_ := 10 |} + total_amount [Tick; TickBy 6]
  ∧ Ticker_getCount (Ticker_calls ([Tick; TickBy 6] ++ [TickBy 0; Tick])
                                  {| count_ := 10 |})
    = Ticker_getCount {| count_ := 10 |}
      + total_amount ([Tick; TickBy 6] ++ [TickBy 0; Tick])
  ∧ Ticker_getCount {| count_ := 10 |}
    ≤ Ticker_getCount (Ticker_calls [Tick; TickBy 6] {| count_ := 10 |})
  ∧ Ticker_getCount (Ticker_calls [Tick; TickBy 6] {| count_ := 10 |})
    ≤ Ticker_getCount (Ticker_calls ([Tick; TickBy 6] ++ [TickBy 0; Tick])
                                    {| count_ := 10 |}).
Proof.
  apply (Ticker_calls_exact_below_wraparound
           [Tick; TickBy 6] [TickBy 0; Tick] {| count_ := 10 |}).
  - unfold Ticker_valid, Int.is_uint64. rewrite uint64_modulus_eq. cbn. lia.
  - repeat (constructor; [cbn; lia|]). constructor.
  - rewrite uint64_modulus_eq. cbn. lia.
Defined.

(** X9. A negative count takes the counter down by its magnitude, and past
    zero the counter wraps to the top of the 64-bit range. *)
Theorem Ticker_recordTick_int_below_zero (n : Z) (tk : Ticker) :
  Ticker_valid tk → Int.is_int n → n < 0 →
  Ticker_getCount (Ticker_recordTick_int n tk)
  = if decide (0 ≤ Ticker_getCount tk + n)
    then Ticker_getCount tk + n
    else Ticker_getCount tk + n + Int.uint64_modulus.
Proof.
  unfold Ticker_valid, Int.is_uint64, Int.is_int, Int.int_min, Int.int_max,
    Ticker_getCount, Ticker_recordTick_int, Int.to_uint64.
  cbn [count_]. rewrite uint64_modulus_eq. intros Htk Hn Hneg.
  rewrite Zplus_mod_idemp_r. case_decide.
  - rewrite Z.mod_small by lia. done.
  - symmetry. apply (Z.mod_unique _ _ (-1)); lia.
Qed.

Lemma Ticker_recordTick_int_below_zero_witness :
  Ticker_getCount (Ticker_recordTick_int (-3) {| count_ := 1 |})
  = if decide (0 ≤ Ticker_getCount {| count_ := 1 |} + -3)
    then Ticker_getCount {| count_ := 1 |} + -3
    else Ticker_getCount {| count_ := 1 |} + -3 + Int.uint64_modulus.
Proof.
  apply (Ticker_recordTick_int_below_zero (-3) {| count_ := 1 |}).
  - unfold Ticker_valid, Int.is_uint64. rewrite uint64_modulus_eq. cbn. lia.
  - unfold Int.is_int, Int.int_min, Int.int_max. lia.
  - lia.
Defined.

(** X10. [recordTick(-n)] undoes [recordTick(n)], wrap-around included. *)
Theorem Ticker_recordTick_int_undo (n : Z) (tk : Ticker) :
  Ticker_valid tk → Int.is_int n → Int.is_int (- n) →
  Ticker_recordTick_int (- n) (Ticker_recordTick_int n tk) = tk.
Proof.
  intros Htk _ _. apply Ticker_eq. cbn. unfold Int.to_uint64.
  rewrite Zplus_mod_idemp_r, Zplus_mod_idemp_r, Zplus_mod_idemp_l.
  replace (count_ tk + n + - n) with (count_ tk) by lia.
  apply Z.mod_small, Htk.
Qed.

Lemma Ticker_recordTick_int_undo_witness :
  Ticker_recordTick_int (- 2147483647)
    (Ticker_recordTick_int 2147483647 {| count_ := 18446744073709551615 |})
  = {| count_ := 18446744073709551615 |}.
Proof.
  apply (Ticker_recordTick_int_undo 2147483647
           {| count_ := 18446744073709551615 |}).
  - unfold Ticker_valid, Int.is_uint64. rewrite uint64_modulus_eq. cbn. lia.
  - unfold Int.is_int, Int.int_min, Int.int_max. lia.
  - unfold Int.is_int, Int.int_min, Int.int_max. lia.
Defined.

(** ** Runs of [RecordTick] *)

(** X11. With the assertions compiled out, a run of [RecordTick] calls through
    a non-null handle makes exactly the listed [recordTick] calls on the
    call-recording object, in order and with their counts, and a run through
    a null handle returns with the handle still null whatever the
    implementation. With the assertions compiled in, a
    non-empty run stops at its first call. *)
Theorem RecordTick_each_forwards {St : Type} `{!Statistics St}
    (NDEBUG : bool) (log : CallLog) (calls : list (Tickers * Z)) :
  RecordTick_each NDEBUG (Some log) calls
  = (if NDEBUG
     then Return (Some (log ++ ((λ c, Call_recordTick c.1 c.2) <$> calls)))
     else match calls with [] => Return (Some log) | _ :: _ => Abort end)
  ∧ RecordTick_each (St := St) NDEBUG None calls
    = (if NDEBUG then Return None
       else match calls with [] => Return None | _ :: _ => Abort end).
Proof.
  destruct NDEBUG.
  - split.
    + revert log. induction calls as [|[t c] calls IH]; intros log.
      * cbn. by rewrite app_nil_r.
      * cbn [RecordTick_each]. rewrite RecordTick_NDEBUG. cbn.
        rewrite IH. by rewrite <- app_assoc.
    + induction calls as [|[t c] calls IH]; [done|].
      cbn [RecordTick_each]. rewrite RecordTick_NDEBUG. apply IH.
  - destruct calls as [|[t c] calls]; [done|].
    cbn [RecordTick_each]. by rewrite !RecordTick_asserting.
Qed.
